(** * Job specifications of the workflow tutorial

    The notebook [4.Create_Workflow_through_CLI] holds two shell commands,
    each passing a JSON job specification to [databricks jobs create --json]:
    one with concrete values and one with placeholders.  This development
    embeds the two payloads as the text the notebook holds, reads them
    with a JSON reader, decodes them into the job data model and checks
    the consistency properties of the task graph. *)

From Stdlib Require Import String Ascii List Bool Arith Lia Relations.
From Stdlib Require Import DecimalString.
Import ListNotations.

Open Scope string_scope.

(** ** JSON values *)

Module Json.

Unset Elimination Schemes.

Inductive json : Type :=
| JNull
| JBool (b : bool)
| JString (s : string)
| JArray (items : list json)
| JObject (members : list (string * json)).

Set Elimination Schemes.

(** Induction that reaches the values nested in arrays and objects. *)
Section Induction.
Variable P : json -> Prop.
Hypothesis Hnull : P JNull.
Hypothesis Hbool : forall b, P (JBool b).
Hypothesis Hstring : forall s, P (JString s).
Hypothesis Harray : forall items, Forall P items -> P (JArray items).
Hypothesis Hobject :
  forall members, Forall (fun m => P (snd m)) members -> P (JObject members).

Fixpoint json_ind (v : json) : P v :=
  match v with
  | JNull => Hnull
  | JBool b => Hbool b
  | JString s => Hstring s
  | JArray items =>
      Harray items
        ((fix all (l : list json) : Forall P l :=
            match l with
            | [] => Forall_nil P
            | x :: r => Forall_cons x (json_ind x) (all r)
            end) items)
  | JObject members =>
      Hobject members
        ((fix all (l : list (string * json))
            : Forall (fun m => P (snd m)) l :=
            match l with
            | [] => Forall_nil _
            | m :: r =>
                Forall_cons (P := fun m => P (snd m)) m
                  (json_ind (snd m)) (all r)
            end) members)
  end.
End Induction.

(** Member lookup: the first member with the given name. *)
Fixpoint assoc (k : string) (members : list (string * json)) : option json :=
  match members with
  | [] => None
  | (k', v) :: r => if String.eqb k k' then Some v else assoc k r
  end.

Definition field (k : string) (v : json) : option json :=
  match v with
  | JObject members => assoc k members
  | _ => None
  end.

Definition has_field (k : string) (v : json) : bool :=
  match field k v with Some _ => true | None => false end.

(** The member names of a value and of everything below it, with each
    leaf blanked: two values have the same shape when they agree on
    arrays, objects and member names at every level. *)
Fixpoint shape (v : json) : json :=
  match v with
  | JNull => JNull
  | JBool _ => JBool false
  | JString _ => JString ""
  | JArray items => JArray (map shape items)
  | JObject members => JObject (map (fun m => (fst m, shape (snd m))) members)
  end.

(** Every value bound to the member name [k], at any depth. *)
Fixpoint values_at (k : string) (v : json) : list json :=
  match v with
  | JNull | JBool _ | JString _ => []
  | JArray items => flat_map (values_at k) items
  | JObject members =>
      flat_map
        (fun m =>
           ((if String.eqb k (fst m) then [snd m] else [])
              ++ values_at k (snd m))%list)
        members
  end.

(** *** Tokens *)

Inductive token : Type :=
| TLBrace | TRBrace | TLBracket | TRBracket | TColon | TComma
| TString (s : string)
| TNull | TTrue | TFalse.

Definition dquote : ascii := "034"%char.
Definition backslash : ascii := "092"%char.
Definition newline : ascii := "010"%char.

Definition is_ws (c : ascii) : bool :=
  Ascii.eqb c " " || Ascii.eqb c newline
  || Ascii.eqb c "013" || Ascii.eqb c "009".

Definition punct (c : ascii) : option token :=
  if Ascii.eqb c "{" then Some TLBrace
  else if Ascii.eqb c "}" then Some TRBrace
  else if Ascii.eqb c "[" then Some TLBracket
  else if Ascii.eqb c "]" then Some TRBracket
  else if Ascii.eqb c ":" then Some TColon
  else if Ascii.eqb c "," then Some TComma
  else None.

(** The character an escape sequence [\e] stands for. *)
Definition unescape (e : ascii) : option ascii :=
  if Ascii.eqb e dquote then Some dquote
  else if Ascii.eqb e backslash then Some backslash
  else if Ascii.eqb e "/" then Some "/"%char
  else if Ascii.eqb e "n" then Some newline
  else if Ascii.eqb e "t" then Some "009"%char
  else if Ascii.eqb e "r" then Some "013"%char
  else if Ascii.eqb e "b" then Some "008"%char
  else if Ascii.eqb e "f" then Some "012"%char
  else None.

(** A word literal starts with its first letter; the rest is expected. *)
Definition literal (c : ascii) : option (string * token) :=
  if Ascii.eqb c "n" then Some ("ull", TNull)
  else if Ascii.eqb c "t" then Some ("rue", TTrue)
  else if Ascii.eqb c "f" then Some ("alse", TFalse)
  else None.

Inductive lex_state : Type :=
| Outside
| InString (rev_buf : list ascii)
| InEscape (rev_buf : list ascii)
| InLiteral (expected : string) (t : token).

Definition emit (t : token) (r : option (list token)) : option (list token) :=
  option_map (cons t) r.

(** One pass over the text; [None] on text that is not JSON tokens. *)
Fixpoint lex_from (st : lex_state) (s : string) : option (list token) :=
  match s with
  | EmptyString =>
      match st with
      | Outside => Some []
      | _ => None
      end
  | String c r =>
      match st with
      | Outside =>
          if is_ws c then lex_from Outside r
          else
            match punct c with
            | Some t => emit t (lex_from Outside r)
            | None =>
                if Ascii.eqb c dquote then lex_from (InString []) r
                else
                  match literal c with
                  | Some (expected, t) => lex_from (InLiteral expected t) r
                  | None => None
                  end
            end
      | InString buf =>
          if Ascii.eqb c dquote then
            emit (TString (string_of_list_ascii (rev buf)))
              (lex_from Outside r)
          else if Ascii.eqb c backslash then lex_from (InEscape buf) r
          else lex_from (InString (c :: buf)) r
      | InEscape buf =>
          match unescape c with
          | Some c' => lex_from (InString (c' :: buf)) r
          | None => None
          end
      | InLiteral expected t =>
          match expected with
          | EmptyString => None
          | String e EmptyString =>
              if Ascii.eqb c e then emit t (lex_from Outside r) else None
          | String e rest =>
              if Ascii.eqb c e then lex_from (InLiteral rest t) r else None
          end
      end
  end.

Definition lex (s : string) : option (list token) := lex_from Outside s.

(** *** Reader *)

(** Recursive descent over the tokens.  Each call consumes a token before
    it recurses, so fuel above the number of tokens is never exhausted. *)
Fixpoint parse_value (fuel : nat) (ts : list token)
  : option (json * list token) :=
  match fuel with
  | O => None
  | S n =>
      match ts with
      | TNull :: r => Some (JNull, r)
      | TTrue :: r => Some (JBool true, r)
      | TFalse :: r => Some (JBool false, r)
      | TString s :: r => Some (JString s, r)
      | TLBracket :: TRBracket :: r => Some (JArray [], r)
      | TLBracket :: r =>
          match parse_value n r with
          | Some (v, r1) =>
              match parse_items n r1 with
              | Some (vs, r2) => Some (JArray (v :: vs), r2)
              | None => None
              end
          | None => None
          end
      | TLBrace :: TRBrace :: r => Some (JObject [], r)
      | TLBrace :: TString k :: TColon :: r =>
          match parse_value n r with
          | Some (v, r1) =>
              match parse_members n r1 with
              | Some (ms, r2) => Some (JObject ((k, v) :: ms), r2)
              | None => None
              end
          | None => None
          end
      | _ => None
      end
  end

(** After an array item: the closing bracket, or a comma and more items. *)
with parse_items (fuel : nat) (ts : list token)
  : option (list json * list token) :=
  match fuel with
  | O => None
  | S n =>
      match ts with
      | TRBracket :: r => Some ([], r)
      | TComma :: r =>
          match parse_value n r with
          | Some (v, r1) =>
              match parse_items n r1 with
              | Some (vs, r2) => Some (v :: vs, r2)
              | None => None
              end
          | None => None
          end
      | _ => None
      end
  end

(** After an object member: the closing brace, or a comma and more. *)
with parse_members (fuel : nat) (ts : list token)
  : option (list (string * json) * list token) :=
  match fuel with
  | O => None
  | S n =>
      match ts with
      | TRBrace :: r => Some ([], r)
      | TComma :: TString k :: TColon :: r =>
          match parse_value n r with
          | Some (v, r1) =>
              match parse_members n r1 with
              | Some (ms, r2) => Some ((k, v) :: ms, r2)
              | None => None
              end
          | None => None
          end
      | _ => None
      end
  end.

Definition parse_tokens (ts : list token) : option json :=
  match parse_value (S (List.length ts)) ts with
  | Some (v, []) => Some v
  | _ => None
  end.

(** Modelled from the spec: the notebook holds no JSON reader; the
    one the round trip needs is [lex] followed by [parse_value], for
    strings, arrays, objects and the word literals. *)
Definition parse (s : string) : option json :=
  match lex s with
  | Some ts => parse_tokens ts
  | None => None
  end.

(** *** Writer *)

(** Inside a JSON string the quote and the backslash are escaped. *)
Fixpoint escape (s : string) : string :=
  match s with
  | EmptyString => EmptyString
  | String c r =>
      if Ascii.eqb c dquote || Ascii.eqb c backslash
      then String backslash (String c (escape r))
      else String c (escape r)
  end.

Definition member_tokens (k : string) (value : list token) : list token :=
  TString k :: TColon :: value.

Fixpoint tokens (v : json) : list token :=
  match v with
  | JNull => [TNull]
  | JBool b => [if b then TTrue else TFalse]
  | JString s => [TString s]
  | JArray items =>
      TLBracket ::
        match items with
        | [] => []
        | x :: more =>
            tokens x ++ flat_map (fun y => TComma :: tokens y) more
        end ++ [TRBracket]
  | JObject members =>
      TLBrace ::
        match members with
        | [] => []
        | (k, x) :: more =>
            member_tokens k (tokens x) ++
              flat_map
                (fun m => TComma :: member_tokens (fst m) (tokens (snd m)))
                more
        end ++ [TRBrace]
  end%list.

Definition render_token (t : token) : string :=
  match t with
  | TLBrace => "{"
  | TRBrace => "}"
  | TLBracket => "["
  | TRBracket => "]"
  | TColon => ":"
  | TComma => ","
  | TString s => String dquote (escape s ++ String dquote EmptyString)
  | TNull => "null"
  | TTrue => "true"
  | TFalse => "false"
  end.

Fixpoint render (ts : list token) : string :=
  match ts with
  | [] => EmptyString
  | t :: r => render_token t ++ render r
  end.

(** Modelled from the spec: the notebook holds no JSON writer; this one
    writes the compact form, with no white space between tokens. *)
Definition serialize (v : json) : string := render (tokens v).

End Json.

(** ** The two payloads of the notebook *)

Module Notebook.

Import Json.

(** A line of a payload is written as its indentation followed by its
    content; [q] puts a name or a value between double quotes. *)
Definition q (s : string) : string :=
  String dquote (s ++ String dquote EmptyString).

Fixpoint indent (n : nat) (s : string) : string :=
  match n with
  | O => s
  | S m => String " " (indent m s)
  end.

(** ["name": "value"] and ["name": "value",] *)
Definition pair_last (n : nat) (k v : string) : string :=
  indent n (q k ++ ": " ++ q v).
Definition pair_more (n : nat) (k v : string) : string :=
  indent n (q k ++ ": " ++ q v ++ ",").
(** ["name": {] and ["name": [] *)
Definition open_object (n : nat) (k : string) : string :=
  indent n (q k ++ ": {").
Definition open_array (n : nat) (k : string) : string :=
  indent n (q k ++ ": [").

(** The argument of [--json] in the first command: the lines between the
    two single quotes. *)
Definition concrete_lines : list string :=
  [ "{"
  ; pair_more 2 "name" "Orchestrating_SQL_Files_on_DBSQL_WAREHOUSE"
  ; open_array 2 "tasks"
  ; indent 4 "{"
  ; pair_more 6 "task_key" "Create_Tables"
  ; pair_more 6 "run_if" "ALL_SUCCESS"
  ; open_object 6 "sql_task"
  ; open_object 8 "file"
  ; pair_more 10 "path"
      "Demos and Tutorials/L100-200 Tutorials/1.Create_Tables.sql"
  ; pair_last 10 "source" "GIT"
  ; indent 8 "},"
  ; pair_last 8 "warehouse_id" "d1184b8c2a8a87eb"
  ; indent 6 "}"
  ; indent 4 "},"
  ; indent 4 "{"
  ; pair_more 6 "task_key" "Load_Data"
  ; open_array 6 "depends_on"
  ; indent 8 "{"
  ; pair_last 10 "task_key" "Create_Tables"
  ; indent 8 "}"
  ; indent 6 "],"
  ; pair_more 6 "run_if" "ALL_SUCCESS"
  ; open_object 6 "sql_task"
  ; open_object 8 "file"
  ; pair_more 10 "path"
      "/Repos/saurabh.shukla@databricks.com/dbsql_sme/Demos and Tutorials/L100-200 Tutorials/2.Load_Data.sql"
  ; pair_last 10 "source" "WORKSPACE"
  ; indent 8 "},"
  ; pair_last 8 "warehouse_id" "d1184b8c2a8a87eb"
  ; indent 6 "}"
  ; indent 4 "},"
  ; indent 4 "{"
  ; pair_more 6 "task_key" "Query_Fact_Sales"
  ; open_array 6 "depends_on"
  ; indent 8 "{"
  ; pair_last 10 "task_key" "Load_Data"
  ; indent 8 "}"
  ; indent 6 "],"
  ; pair_more 6 "run_if" "ALL_SUCCESS"
  ; open_object 6 "sql_task"
  ; open_object 8 "file"
  ; pair_more 10 "path"
      "/Repos/saurabh.shukla@databricks.com/dbsql_sme/Demos and Tutorials/L100-200 Tutorials/3.Query_Fact_Sales.sql"
  ; pair_last 10 "source" "WORKSPACE"
  ; indent 8 "},"
  ; pair_last 8 "warehouse_id" "d1184b8c2a8a87eb"
  ; indent 6 "}"
  ; indent 4 "}"
  ; indent 2 "],"
  ; open_object 2 "git_source"
  ; pair_more 4 "git_url"
      "https://github.com/saurabhshukla-db/dbsql_sme.git"
  ; pair_more 4 "git_provider" "gitHub"
  ; pair_last 4 "git_branch" "feature_branch_sqlfiles"
  ; indent 2 "},"
  ; open_object 2 "run_as"
  ; pair_last 4 "user_name" "saurabh.shukla@databricks.com"
  ; indent 2 "}"
  ; "}" ].

(** The argument of [--json] in the second command. *)
Definition templated_lines : list string :=
  [ "{"
  ; pair_more 2 "name" "Orchestrating_SQL_Files_on_DBSQL_WAREHOUSE"
  ; open_array 2 "tasks"
  ; indent 4 "{"
  ; pair_more 6 "task_key" "Create_Tables"
  ; pair_more 6 "run_if" "ALL_SUCCESS"
  ; open_object 6 "sql_task"
  ; open_object 8 "file"
  ; pair_more 10 "path" "<GITPATH>/1.Create_Tables.sql"
  ; pair_last 10 "source" "GIT"
  ; indent 8 "},"
  ; pair_last 8 "warehouse_id" "<DBSQL warehouse_id>"
  ; indent 6 "}"
  ; indent 4 "},"
  ; indent 4 "{"
  ; pair_more 6 "task_key" "Load_Data"
  ; open_array 6 "depends_on"
  ; indent 8 "{"
  ; pair_last 10 "task_key" "Create_Tables"
  ; indent 8 "}"
  ; indent 6 "],"
  ; pair_more 6 "run_if" "ALL_SUCCESS"
  ; open_object 6 "sql_task"
  ; open_object 8 "file"
  ; pair_more 10 "path" "<GITPATH>/2.Load_Data.sql"
  ; pair_last 10 "source" "WORKSPACE"
  ; indent 8 "},"
  ; pair_last 8 "warehouse_id" "<DBSQL warehouse_id>"
  ; indent 6 "}"
  ; indent 4 "},"
  ; indent 4 "{"
  ; pair_more 6 "task_key" "Query_Fact_Sales"
  ; open_array 6 "depends_on"
  ; indent 8 "{"
  ; pair_last 10 "task_key" "Load_Data"
  ; indent 8 "}"
  ; indent 6 "],"
  ; pair_more 6 "run_if" "ALL_SUCCESS"
  ; open_object 6 "sql_task"
  ; open_object 8 "file"
  ; pair_more 10 "path" "<GITPATH>/3.Query_Fact_Sales.sql"
  ; pair_last 10 "source" "WORKSPACE"
  ; indent 8 "},"
  ; pair_last 8 "warehouse_id" "<DBSQL warehouse_id>"
  ; indent 6 "}"
  ; indent 4 "}"
  ; indent 2 "],"
  ; open_object 2 "git_source"
  ; pair_more 4 "git_url" "https://github.com/<GITUSERNAME>/dbsql_sme.git"
  ; pair_more 4 "git_provider" "gitHub"
  ; pair_last 4 "git_branch" "feature_branch_sqlfiles"
  ; indent 2 "},"
  ; open_object 2 "run_as"
  ; pair_last 4 "user_name" "<username>@<domain>.com"
  ; indent 2 "}"
  ; "}" ].

(** The text between the quotes: a line break after the opening quote,
    then every line with its line break. *)
Definition payload (lines : list string) : string :=
  String newline
    (fold_right (fun l r => l ++ String newline r) EmptyString lines).

(** Printable ASCII other than the backslash, or a line break: text in
    which no JSON string needs or holds an escape. *)
Definition plain_char (c : ascii) : bool :=
  Ascii.eqb c newline
  || (Nat.leb 32 (nat_of_ascii c) && Nat.ltb (nat_of_ascii c) 127
      && negb (Ascii.eqb c backslash)).

Definition plain_text (s : string) : bool :=
  forallb plain_char (list_ascii_of_string s).

Definition concrete_payload : string := payload concrete_lines.
Definition templated_payload : string := payload templated_lines.

End Notebook.

(** ** The job data model *)

Module JobSpec.

Import Json.

Record File : Type := {
  path : string;
  source : string
}.

Record SqlTask : Type := {
  file : File;
  warehouse_id : string
}.

Record Task : Type := {
  task_key : string;
  depends_on : list string;
  run_if : string;
  sql_task : SqlTask
}.

Record GitSource : Type := {
  git_url : string;
  git_provider : string;
  git_branch : string
}.

Record RunAs : Type := {
  user_name : string
}.

Record Job : Type := {
  name : string;
  tasks : list Task;
  git_source : option GitSource;
  run_as : RunAs
}.

(** *** Decoding a JSON value into a job *)

Definition bind {A B : Type} (o : option A) (k : A -> option B) : option B :=
  match o with
  | Some a => k a
  | None => None
  end.

Notation "x <- e ;; k" := (bind e (fun x => k))
  (at level 61, e at next level, right associativity).

Fixpoint sequence {A : Type} (l : list (option A)) : option (list A) :=
  match l with
  | [] => Some []
  | o :: r => a <- o ;; rest <- sequence r ;; Some (a :: rest)
  end.

Definition get_string (k : string) (v : json) : option string :=
  match field k v with
  | Some (JString s) => Some s
  | _ => None
  end.

Definition decode_file (v : json) : option File :=
  p <- get_string "path" v ;;
  s <- get_string "source" v ;;
  Some {| path := p; source := s |}.

Definition decode_sql_task (v : json) : option SqlTask :=
  fv <- field "file" v ;;
  f <- decode_file fv ;;
  w <- get_string "warehouse_id" v ;;
  Some {| file := f; warehouse_id := w |}.

(** A task without a [depends_on] member depends on nothing; each
    entry of the member names one task by its [task_key]. *)
Definition decode_depends_on (v : json) : option (list string) :=
  match field "depends_on" v with
  | None => Some []
  | Some (JArray entries) => sequence (map (get_string "task_key") entries)
  | Some _ => None
  end.

Definition decode_task (v : json) : option Task :=
  k <- get_string "task_key" v ;;
  d <- decode_depends_on v ;;
  r <- get_string "run_if" v ;;
  sv <- field "sql_task" v ;;
  s <- decode_sql_task sv ;;
  Some {| task_key := k; depends_on := d; run_if := r; sql_task := s |}.

Definition decode_git_source (v : json) : option GitSource :=
  u <- get_string "git_url" v ;;
  p <- get_string "git_provider" v ;;
  b <- get_string "git_branch" v ;;
  Some {| git_url := u; git_provider := p; git_branch := b |}.

Definition decode_run_as (v : json) : option RunAs :=
  u <- get_string "user_name" v ;;
  Some {| user_name := u |}.

Definition task_values (v : json) : list json :=
  match field "tasks" v with
  | Some (JArray ts) => ts
  | _ => []
  end.

Definition decode_job (v : json) : option Job :=
  n <- get_string "name" v ;;
  ts <- match field "tasks" v with
        | Some (JArray ts) => sequence (map decode_task ts)
        | _ => None
        end ;;
  g <- match field "git_source" v with
       | None => Some None
       | Some gv => option_map Some (decode_git_source gv)
       end ;;
  rv <- field "run_as" v ;;
  r <- decode_run_as rv ;;
  Some {| name := n; tasks := ts; git_source := g; run_as := r |}.

(** From the text of a payload to the job it specifies. *)
Definition read_job (text : string) : option Job :=
  v <- parse text ;; decode_job v.

(** Modelled from the spec: parsing a payload and re-serializing it,
    in the writer's own layout. *)
Definition reserialize (text : string) : option string :=
  option_map serialize (parse text).

(** *** The task graph *)

Definition task_keys (j : Job) : list string := map task_key (tasks j).

(** An edge [(a, b)]: task [a] depends on task [b]. *)
Definition edges (j : Job) : list (string * string) :=
  flat_map (fun t => map (fun d => (task_key t, d)) (depends_on t)) (tasks j).

Definition run_ifs (j : Job) : list (string * string) :=
  map (fun t => (task_key t, run_if t)) (tasks j).

(** What a round trip has to keep: keys, edges and [run_if] per task. *)
Definition graph (j : Job) :
  list string * list (string * string) * list (string * string) :=
  (task_keys j, edges j, run_ifs j).

Definition graph_of (text : string) :
  option (list string * list (string * string) * list (string * string)) :=
  option_map graph (read_job text).

Definition depends (j : Job) (a b : string) : Prop := In (a, b) (edges j).

(** [b] is reachable from [a] through one or more [depends_on] edges. *)
Definition reachable (j : Job) : string -> string -> Prop :=
  clos_trans string (depends j).

Definition acyclic (j : Job) : Prop := forall k, ~ reachable j k k.

Definition mem (s : string) (l : list string) : bool :=
  existsb (String.eqb s) l.

(** Every referenced key is the key of a task of the job. *)
Definition references_resolve (j : Job) : bool :=
  forallb (fun e => mem (snd e) (task_keys j)) (edges j).

(** The position of a key in a list of keys (the length when absent). *)
Fixpoint index_of (k : string) (l : list string) : nat :=
  match l with
  | [] => 0
  | k' :: r => if String.eqb k k' then 0 else S (index_of k r)
  end.

(** Every task comes after the tasks it depends on. *)
Definition topological (j : Job) : bool :=
  forallb
    (fun e =>
       Nat.ltb (index_of (snd e) (task_keys j))
         (index_of (fst e) (task_keys j)))
    (edges j).

(** Where the file of a task comes from. *)
Definition sources : list string := ["GIT"; "WORKSPACE"].

End JobSpec.

(** ** The payloads as values *)

Module Payloads.

Import Json JobSpec Notebook.

(** The document of the first command. *)
Definition concrete_json : json :=
  JObject
    [ ("name", JString "Orchestrating_SQL_Files_on_DBSQL_WAREHOUSE")
    ; ("tasks", JArray
        [ JObject
            [ ("task_key", JString "Create_Tables")
            ; ("run_if", JString "ALL_SUCCESS")
            ; ("sql_task", JObject
                [ ("file", JObject
                    [ ("path", JString "Demos and Tutorials/L100-200 Tutorials/1.Create_Tables.sql")
                    ; ("source", JString "GIT") ])
                ; ("warehouse_id", JString "d1184b8c2a8a87eb") ]) ]
        ; JObject
            [ ("task_key", JString "Load_Data")
            ; ("depends_on", JArray
                [ JObject
                    [ ("task_key", JString "Create_Tables") ] ])
            ; ("run_if", JString "ALL_SUCCESS")
            ; ("sql_task", JObject
                [ ("file", JObject
                    [ ("path", JString "/Repos/saurabh.shukla@databricks.com/dbsql_sme/Demos and Tutorials/L100-200 Tutorials/2.Load_Data.sql")
                    ; ("source", JString "WORKSPACE") ])
                ; ("warehouse_id", JString "d1184b8c2a8a87eb") ]) ]
        ; JObject
            [ ("task_key", JString "Query_Fact_Sales")
            ; ("depends_on", JArray
                [ JObject
                    [ ("task_key", JString "Load_Data") ] ])
            ; ("run_if", JString "ALL_SUCCESS")
            ; ("sql_task", JObject
                [ ("file", JObject
                    [ ("path", JString "/Repos/saurabh.shukla@databricks.com/dbsql_sme/Demos and Tutorials/L100-200 Tutorials/3.Query_Fact_Sales.sql")
                    ; ("source", JString "WORKSPACE") ])
                ; ("warehouse_id", JString "d1184b8c2a8a87eb") ]) ] ])
    ; ("git_source", JObject
        [ ("git_url", JString "https://github.com/saurabhshukla-db/dbsql_sme.git")
        ; ("git_provider", JString "gitHub")
        ; ("git_branch", JString "feature_branch_sqlfiles") ])
    ; ("run_as", JObject
        [ ("user_name", JString "saurabh.shukla@databricks.com") ]) ].

(** The document of the second command. *)
Definition templated_json : json :=
  JObject
    [ ("name", JString "Orchestrating_SQL_Files_on_DBSQL_WAREHOUSE")
    ; ("tasks", JArray
        [ JObject
            [ ("task_key", JString "Create_Tables")
            ; ("run_if", JString "ALL_SUCCESS")
            ; ("sql_task", JObject
                [ ("file", JObject
                    [ ("path", JString "<GITPATH>/1.Create_Tables.sql")
                    ; ("source", JString "GIT") ])
                ; ("warehouse_id", JString "<DBSQL warehouse_id>") ]) ]
        ; JObject
            [ ("task_key", JString "Load_Data")
            ; ("depends_on", JArray
                [ JObject
                    [ ("task_key", JString "Create_Tables") ] ])
            ; ("run_if", JString "ALL_SUCCESS")
            ; ("sql_task", JObject
                [ ("file", JObject
                    [ ("path", JString "<GITPATH>/2.Load_Data.sql")
                    ; ("source", JString "WORKSPACE") ])
                ; ("warehouse_id", JString "<DBSQL warehouse_id>") ]) ]
        ; JObject
            [ ("task_key", JString "Query_Fact_Sales")
            ; ("depends_on", JArray
                [ JObject
                    [ ("task_key", JString "Load_Data") ] ])
            ; ("run_if", JString "ALL_SUCCESS")
            ; ("sql_task", JObject
                [ ("file", JObject
                    [ ("path", JString "<GITPATH>/3.Query_Fact_Sales.sql")
                    ; ("source", JString "WORKSPACE") ])
                ; ("warehouse_id", JString "<DBSQL warehouse_id>") ]) ] ])
    ; ("git_source", JObject
        [ ("git_url", JString "https://github.com/<GITUSERNAME>/dbsql_sme.git")
        ; ("git_provider", JString "gitHub")
        ; ("git_branch", JString "feature_branch_sqlfiles") ])
    ; ("run_as", JObject
        [ ("user_name", JString "<username>@<domain>.com") ]) ].

Definition concrete_create_tables : Task :=
  {| task_key := "Create_Tables";
     depends_on := [];
     run_if := "ALL_SUCCESS";
     sql_task :=
       {| file :=
            {| path := "Demos and Tutorials/L100-200 Tutorials/1.Create_Tables.sql";
               source := "GIT" |};
          warehouse_id := "d1184b8c2a8a87eb" |} |}.

Definition concrete_load_data : Task :=
  {| task_key := "Load_Data";
     depends_on := ["Create_Tables"];
     run_if := "ALL_SUCCESS";
     sql_task :=
       {| file :=
            {| path := "/Repos/saurabh.shukla@databricks.com/dbsql_sme/Demos and Tutorials/L100-200 Tutorials/2.Load_Data.sql";
               source := "WORKSPACE" |};
          warehouse_id := "d1184b8c2a8a87eb" |} |}.

Definition concrete_query_fact_sales : Task :=
  {| task_key := "Query_Fact_Sales";
     depends_on := ["Load_Data"];
     run_if := "ALL_SUCCESS";
     sql_task :=
       {| file :=
            {| path := "/Repos/saurabh.shukla@databricks.com/dbsql_sme/Demos and Tutorials/L100-200 Tutorials/3.Query_Fact_Sales.sql";
               source := "WORKSPACE" |};
          warehouse_id := "d1184b8c2a8a87eb" |} |}.

(** The job the first command specifies. *)
Definition concrete_job : Job :=
  {| name := "Orchestrating_SQL_Files_on_DBSQL_WAREHOUSE";
     tasks := [ concrete_create_tables; concrete_load_data; concrete_query_fact_sales ];
     git_source :=
       Some {| git_url := "https://github.com/saurabhshukla-db/dbsql_sme.git";
               git_provider := "gitHub";
               git_branch := "feature_branch_sqlfiles" |};
     run_as := {| user_name := "saurabh.shukla@databricks.com" |} |}.

Definition templated_create_tables : Task :=
  {| task_key := "Create_Tables";
     depends_on := [];
     run_if := "ALL_SUCCESS";
     sql_task :=
       {| file :=
            {| path := "<GITPATH>/1.Create_Tables.sql";
               source := "GIT" |};
          warehouse_id := "<DBSQL warehouse_id>" |} |}.

Definition templated_load_data : Task :=
  {| task_key := "Load_Data";
     depends_on := ["Create_Tables"];
     run_if := "ALL_SUCCESS";
     sql_task :=
       {| file :=
            {| path := "<GITPATH>/2.Load_Data.sql";
               source := "WORKSPACE" |};
          warehouse_id := "<DBSQL warehouse_id>" |} |}.

Definition templated_query_fact_sales : Task :=
  {| task_key := "Query_Fact_Sales";
     depends_on := ["Load_Data"];
     run_if := "ALL_SUCCESS";
     sql_task :=
       {| file :=
            {| path := "<GITPATH>/3.Query_Fact_Sales.sql";
               source := "WORKSPACE" |};
          warehouse_id := "<DBSQL warehouse_id>" |} |}.

(** The job the second command specifies. *)
Definition templated_job : Job :=
  {| name := "Orchestrating_SQL_Files_on_DBSQL_WAREHOUSE";
     tasks := [ templated_create_tables; templated_load_data; templated_query_fact_sales ];
     git_source :=
       Some {| git_url := "https://github.com/<GITUSERNAME>/dbsql_sme.git";
               git_provider := "gitHub";
               git_branch := "feature_branch_sqlfiles" |};
     run_as := {| user_name := "<username>@<domain>.com" |} |}.

(** The four substitution points of the template. *)
Definition placeholders : list string :=
  [ "<GITPATH>"; "<DBSQL warehouse_id>"; "<GITUSERNAME>";
    "<username>@<domain>.com" ].

Definition jobs : list Job := [concrete_job; templated_job].
Definition texts : list string := [concrete_payload; templated_payload].

(** Each document with the job it decodes to. *)
Definition specifications : list (json * Job) :=
  [(concrete_json, concrete_job); (templated_json, templated_job)].

End Payloads.

(** ** Templates and their placeholders *)

Module Template.

Import Json JobSpec Notebook Payloads.

(** A leaf of the template against the leaf of the concrete document:
    the same string, or a placeholder standing where the concrete
    document has a value, between the same text before and after. *)
Inductive leaf_template : string -> string -> Prop :=
| leaf_same (s : string) : leaf_template s s
| leaf_filled (before p after value : string) :
    In p placeholders ->
    leaf_template (before ++ p ++ after) (before ++ value ++ after).

(** The template relation on documents: the same arrays, the same
    objects with the same member names in the same order, and leaves
    related by [leaf_template]. *)
#[warnings="-register-all"]
Inductive template_of : json -> json -> Prop :=
| template_null : template_of JNull JNull
| template_bool (b : bool) : template_of (JBool b) (JBool b)
| template_string (t c : string) :
    leaf_template t c -> template_of (JString t) (JString c)
| template_array (ts cs : list json) :
    Forall2 template_of ts cs -> template_of (JArray ts) (JArray cs)
| template_object (ts cs : list (string * json)) :
    Forall2 (fun t c => fst t = fst c /\ template_of (snd t) (snd c)) ts cs ->
    template_of (JObject ts) (JObject cs).

(** The placeholders of a text, left to right.  Every [<] has to start
    one of the known placeholders, whose characters are then skipped;
    an angle bracket outside a placeholder makes the scan fail. *)
Fixpoint occurrences (skip : nat) (s : string) : option (list string) :=
  match s with
  | EmptyString => Some []
  | String c r =>
      match skip with
      | S n => occurrences n r
      | O =>
          if Ascii.eqb c "<" then
            match find (fun p => String.prefix p s) placeholders with
            | Some p =>
                option_map (cons p) (occurrences (String.length p - 1) r)
            | None => None
            end
          else if Ascii.eqb c ">" then None
          else occurrences 0 r
      end
  end.

Definition substitution_points (s : string) : option (list string) :=
  occurrences 0 s.

End Template.

(** ** The notebook around the payloads *)

Module Cells.

Import Json Notebook.

Definition squote : ascii := "039"%char.

(** The first line of a notebook source file. *)
Definition header : string := "# Databricks notebook source".

(** The first cell: a markdown cell without text. *)
Definition markdown_cell : string :=
  "# MAGIC %md" ++ String newline "# MAGIC".

(** Cells are set apart by a marker line between two empty lines. *)
Definition cell_break : string :=
  String newline (String newline
    ("# COMMAND ----------" ++ String newline (String newline ""))).

(** The command of a cell: the payload between single quotes. *)
Definition command (payload : string) : string :=
  "databricks jobs create --json "
    ++ String squote (payload ++ String squote "").

(** The whole file. *)
Definition notebook : string :=
  header ++ String newline markdown_cell
    ++ cell_break ++ command concrete_payload
    ++ cell_break ++ command templated_payload.

Definition no_squote (s : string) : bool :=
  forallb (fun c => negb (Ascii.eqb c squote)) (list_ascii_of_string s).

Inductive quote_state : Type :=
| Bare
| Quoted (rev_buf : list ascii).

(** Modelled from the spec: the argument of [--json] is delimited as a
    literal string.  A single quote opens a word that runs, character
    for character, to the next single quote; a word left open makes
    the scan fail. *)
Fixpoint quoted_from (st : quote_state) (s : string) : option (list string) :=
  match s with
  | EmptyString =>
      match st with
      | Bare => Some []
      | Quoted _ => None
      end
  | String c r =>
      match st with
      | Bare =>
          if Ascii.eqb c squote then quoted_from (Quoted []) r
          else quoted_from Bare r
      | Quoted buf =>
          if Ascii.eqb c squote then
            option_map (cons (string_of_list_ascii (rev buf)))
              (quoted_from Bare r)
          else quoted_from (Quoted (c :: buf)) r
      end
  end.

Definition quoted_words (s : string) : option (list string) :=
  quoted_from Bare s.

End Cells.

(** ** From a job back to its document *)

Module Codec.

Import Json JobSpec.

Definition encode_file (f : File) : json :=
  JObject [("path", JString (path f)); ("source", JString (source f))].

Definition encode_sql_task (s : SqlTask) : json :=
  JObject
    [("file", encode_file (file s));
     ("warehouse_id", JString (warehouse_id s))].

Definition encode_reference (key : string) : json :=
  JObject [("task_key", JString key)].

(** A task that depends on nothing has no [depends_on] member. *)
Definition encode_depends_on (keys : list string) : list (string * json) :=
  match keys with
  | [] => []
  | _ => [("depends_on", JArray (map encode_reference keys))]
  end.

Definition encode_task (t : Task) : json :=
  JObject
    (("task_key", JString (task_key t))
       :: encode_depends_on (depends_on t)
       ++ [("run_if", JString (run_if t));
           ("sql_task", encode_sql_task (sql_task t))])%list.

Definition encode_git_source (g : GitSource) : json :=
  JObject
    [("git_url", JString (git_url g));
     ("git_provider", JString (git_provider g));
     ("git_branch", JString (git_branch g))].

Definition encode_run_as (r : RunAs) : json :=
  JObject [("user_name", JString (user_name r))].

Definition encode_job (j : Job) : json :=
  JObject
    ([("name", JString (name j));
      ("tasks", JArray (map encode_task (tasks j)))]
       ++ match git_source j with
          | Some g => [("git_source", encode_git_source g)]
          | None => []
          end
       ++ [("run_as", encode_run_as (run_as j))])%list.

End Codec.

(** ** Member names, file paths and the fields of the template *)

Module Fields.

Import Json JobSpec.

Fixpoint distinct (l : list string) : bool :=
  match l with
  | [] => true
  | k :: r => negb (mem k r) && distinct r
  end.

(** No object, at any depth, has two members of one name. *)
Fixpoint unique_names (v : json) : bool :=
  match v with
  | JNull | JBool _ | JString _ => true
  | JArray items => forallb unique_names items
  | JObject members =>
      distinct (map fst members)
      && forallb (fun m => unique_names (snd m)) members
  end.

(** Member lookup that keeps the last member of the given name. *)
Fixpoint assoc_last (k : string) (members : list (string * json))
  : option json :=
  match members with
  | [] => None
  | (k', v) :: r =>
      match assoc_last k r with
      | Some x => Some x
      | None => if String.eqb k k' then Some v else None
      end
  end.

Definition field_last (k : string) (v : json) : option json :=
  match v with
  | JObject members => assoc_last k members
  | _ => None
  end.



Definition has_bracket (s : string) : bool :=
  existsb (fun c => Ascii.eqb c "<" || Ascii.eqb c ">")
    (list_ascii_of_string s).

(** A line of the template against the concrete line at its place: the
    two are equal exactly when the template's holds no angle bracket. *)
Definition line_kept (t c : string) : bool :=
  Bool.eqb (String.eqb t c) (negb (has_bracket t)).

Fixpoint forall2b {A B : Type} (f : A -> B -> bool)
  (l : list A) (l' : list B) : bool :=
  match l, l' with
  | [], [] => true
  | a :: r, b :: r' => f a b && forall2b f r r'
  | _, _ => false
  end.


Fixpoint has_slash (s : string) : bool :=
  match s with
  | EmptyString => false
  | String c r => Ascii.eqb c "/" || has_slash r
  end.

(** What follows the last slash of a path. *)
Fixpoint basename (s : string) : string :=
  match s with
  | EmptyString => EmptyString
  | String c r =>
      if has_slash r then basename r
      else if Ascii.eqb c "/" then r
      else String c r
  end.

(** What precedes the last slash of a path. *)
Fixpoint dirname (s : string) : string :=
  match s with
  | EmptyString => EmptyString
  | String c r => if has_slash r then String c (dirname r) else EmptyString
  end.

Definition decimal (n : nat) : string :=
  NilEmpty.string_of_uint (Nat.to_uint n).

(** The file of the task at a position (from 1) of the tutorial. *)
Definition script_name (position : nat) (key : string) : string :=
  decimal position ++ "." ++ key ++ ".sql".

Definition file_path (t : Task) : string := path (file (sql_task t)).
Definition file_source (t : Task) : string := source (file (sql_task t)).

End Fields.

(** ** Reading the payloads *)

Import Json JobSpec Notebook Payloads Template.

Lemma parse_concrete : parse concrete_payload = Some concrete_json.
Proof. vm_compute. reflexivity. Qed.

Lemma parse_templated : parse templated_payload = Some templated_json.
Proof. vm_compute. reflexivity. Qed.

(** Neither payload holds an escape sequence or a control character
    other than its line breaks. *)
Lemma payloads_plain :
  plain_text concrete_payload = true /\ plain_text templated_payload = true.
Proof. split; vm_compute; reflexivity. Qed.

Lemma decode_concrete : decode_job concrete_json = Some concrete_job.
Proof. reflexivity. Qed.

Lemma decode_templated : decode_job templated_json = Some templated_job.
Proof. reflexivity. Qed.

Lemma read_concrete : read_job concrete_payload = Some concrete_job.
Proof. unfold read_job. rewrite parse_concrete. exact decode_concrete. Qed.

Lemma read_templated : read_job templated_payload = Some templated_job.
Proof. unfold read_job. rewrite parse_templated. exact decode_templated. Qed.

(** ** The dependency graph *)

Section Acyclicity.
Variable j : Job.
Hypothesis ordered : topological j = true.

Let position (k : string) : nat := index_of k (task_keys j).

Lemma depends_position (a b : string) :
  depends j a b -> position b < position a.
Proof.
  unfold depends, topological in *. intros Hin.
  rewrite forallb_forall in ordered.
  apply ordered in Hin. now apply Nat.ltb_lt in Hin.
Qed.

Lemma reachable_position (a b : string) :
  reachable j a b -> position b < position a.
Proof.
  induction 1 as [a b Hab | a m b _ IHam _ IHmb].
  - now apply depends_position.
  - lia.
Qed.

(** A job whose tasks come after their dependencies has no cycle. *)
Lemma topological_acyclic : acyclic j.
Proof.
  intros k Hk. apply reachable_position in Hk. lia.
Qed.
End Acyclicity.

Lemma mem_In (s : string) (l : list string) : mem s l = true <-> In s l.
Proof.
  unfold mem. rewrite existsb_exists. split.
  - intros [x [Hx Heq]]. apply String.eqb_eq in Heq. now subst.
  - intros H. exists s. split; [assumption | apply String.eqb_refl].
Qed.

(** The boolean check of the references against its reading. *)
Lemma references_resolve_spec (j : Job) :
  references_resolve j = true ->
  forall t d, In t (tasks j) -> In d (depends_on t) -> In d (task_keys j).
Proof.
  unfold references_resolve. rewrite forallb_forall.
  intros Hall t d Ht Hd. apply mem_In.
  apply (Hall (task_key t, d)). unfold edges.
  apply in_flat_map. exists t. split; [assumption |].
  apply in_map_iff. now exists d.
Qed.

Lemma in_jobs (j : Job) :
  In j jobs -> j = concrete_job \/ j = templated_job.
Proof. simpl. intuition. Qed.

Lemma in_tasks_concrete (t : Task) :
  In t (tasks concrete_job) ->
  t = concrete_create_tables \/ t = concrete_load_data
  \/ t = concrete_query_fact_sales.
Proof. simpl. intuition. Qed.

Lemma in_tasks_templated (t : Task) :
  In t (tasks templated_job) ->
  t = templated_create_tables \/ t = templated_load_data
  \/ t = templated_query_fact_sales.
Proof. simpl. intuition. Qed.

(** Case analysis on a task of one of the two jobs. *)
Ltac each_task Hj Ht :=
  apply in_jobs in Hj; destruct Hj as [-> | ->];
  [ apply in_tasks_concrete in Ht | apply in_tasks_templated in Ht ];
  destruct Ht as [-> | [-> | ->]].

(** ** Properties of the payloads *)

(** C2: in the concrete payload the [depends_on] edges are exactly
    Load_Data -> Create_Tables and Query_Fact_Sales -> Load_Data, a
    simple chain, and no task is reachable from itself through them. *)
Theorem concrete_dependency_chain :
  edges concrete_job
    = [("Load_Data", "Create_Tables"); ("Query_Fact_Sales", "Load_Data")]
  /\ acyclic concrete_job.
Proof.
  split.
  - reflexivity.
  - apply topological_acyclic. reflexivity.
Qed.

(** C3: in both payloads, every [task_key] referenced by a [depends_on]
    entry of a task is the key of one of the payload's tasks. *)
Theorem depends_on_references_exist (j : Job) (t : Task) (d : string) :
  In j jobs -> In t (tasks j) -> In d (depends_on t) -> In d (task_keys j).
Proof.
  intros Hj. apply references_resolve_spec.
  apply in_jobs in Hj. destruct Hj as [-> | ->]; reflexivity.
Qed.

Lemma depends_on_references_exist_witness :
  In concrete_job jobs
  /\ In concrete_load_data (tasks concrete_job)
  /\ In "Create_Tables" (depends_on concrete_load_data)
  /\ In "Create_Tables" (task_keys concrete_job).
Proof.
  assert (Hj : In concrete_job jobs) by (simpl; auto).
  assert (Ht : In concrete_load_data (tasks concrete_job)) by (simpl; auto).
  assert (Hd : In "Create_Tables" (depends_on concrete_load_data))
    by (simpl; auto).
  repeat split; try assumption.
  exact (depends_on_references_exist _ _ _ Hj Ht Hd).
Defined.

(** C4: in both payloads, the [sql_task.file.source] of every task is
    one of GIT and WORKSPACE. *)
Theorem file_source_enumerated (j : Job) (t : Task) :
  In j jobs -> In t (tasks j) -> In (source (file (sql_task t))) sources.
Proof.
  intros Hj Ht. each_task Hj Ht; simpl; auto.
Qed.

Lemma file_source_enumerated_witness :
  In templated_job jobs
  /\ In templated_query_fact_sales (tasks templated_job)
  /\ In (source (file (sql_task templated_query_fact_sales))) sources.
Proof.
  assert (Hj : In templated_job jobs) by (simpl; auto).
  assert (Ht : In templated_query_fact_sales (tasks templated_job))
    by (simpl; auto).
  repeat split; try assumption.
  exact (file_source_enumerated _ _ Hj Ht).
Defined.

(** C6: in each payload the [task_key] values of the tasks are
    pairwise distinct. *)
Theorem task_keys_distinct :
  NoDup (task_keys concrete_job) /\ NoDup (task_keys templated_job).
Proof.
  split; cbn; repeat constructor; simpl; intuition discriminate.
Qed.

(** C8: in both payloads every task has the [run_if] policy
    ALL_SUCCESS, and no other value is bound to [run_if] anywhere in
    either document. *)
Theorem run_if_all_success (v : json) (j : Job) :
  In (v, j) specifications ->
  Forall (fun t => run_if t = "ALL_SUCCESS") (tasks j)
  /\ Forall (eq (JString "ALL_SUCCESS")) (values_at "run_if" v)
  /\ List.length (values_at "run_if" v) = List.length (tasks j).
Proof.
  intros [H | [H | []]]; injection H as <- <-;
    (split; [| split]); cbn; repeat constructor.
Qed.

Lemma run_if_all_success_witness :
  In (templated_json, templated_job) specifications
  /\ Forall (fun t => run_if t = "ALL_SUCCESS") (tasks templated_job)
  /\ Forall (eq (JString "ALL_SUCCESS")) (values_at "run_if" templated_json)
  /\ List.length (values_at "run_if" templated_json)
     = List.length (tasks templated_job).
Proof.
  assert (H : In (templated_json, templated_job) specifications)
    by (simpl; auto).
  split; [exact H | exact (run_if_all_success _ _ H)].
Defined.

(** C9: within each payload all tasks name one warehouse:
    d1184b8c2a8a87eb in the concrete payload and the placeholder
    <DBSQL warehouse_id> in the templated one. *)
Theorem single_warehouse_per_job :
  Forall (fun t => warehouse_id (sql_task t) = "d1184b8c2a8a87eb")
    (tasks concrete_job)
  /\ Forall (fun t => warehouse_id (sql_task t) = "<DBSQL warehouse_id>")
       (tasks templated_job).
Proof.
  split; cbn; repeat constructor.
Qed.

(** C10: in both payloads the first task, Create_Tables, has no
    [depends_on] member and so no dependency; every other task has the
    member with at least one entry.  Create_Tables is the only root. *)
Theorem create_tables_unique_root (v : json) (j : Job) :
  In (v, j) specifications ->
  (exists first others,
      task_values v = first :: others
      /\ get_string "task_key" first = Some "Create_Tables"
      /\ has_field "depends_on" first = false
      /\ Forall (fun t => has_field "depends_on" t = true) others)
  /\ (forall t, In t (tasks j) ->
        (depends_on t = [] <-> task_key t = "Create_Tables")).
Proof.
  intros [H | [H | []]]; injection H as <- <-; split;
    try (eexists; eexists; split; [reflexivity |];
         repeat split; repeat constructor);
    intros t [<- | [<- | [<- | []]]]; simpl; split;
      intros; try reflexivity; discriminate.
Qed.

Lemma create_tables_unique_root_witness :
  In (concrete_json, concrete_job) specifications
  /\ (depends_on concrete_create_tables = []
      <-> task_key concrete_create_tables = "Create_Tables")
  /\ (depends_on concrete_query_fact_sales = []
      <-> task_key concrete_query_fact_sales = "Create_Tables").
Proof.
  assert (H : In (concrete_json, concrete_job) specifications)
    by (simpl; auto).
  destruct (create_tables_unique_root _ _ H) as [_ Hroot].
  split; [exact H |].
  split; apply Hroot; simpl; auto.
Defined.

(** ** The template against the concrete document *)

Lemma Forall2_map_under {A B : Type} (R : A -> A -> Prop) (f : A -> B)
  (l l' : list A) :
  Forall (fun x => forall y, R x y -> f x = f y) l ->
  Forall2 R l l' -> map f l = map f l'.
Proof.
  intros Hall Hrel.
  induction Hrel; inversion Hall; subst; simpl; f_equal; auto.
Qed.

(** A template has the shape of the document it stands for. *)
Lemma template_shape (t : json) :
  forall c, template_of t c -> shape t = shape c.
Proof.
  induction t as [| b | s | items IH | members IH] using json_ind;
    intros c H; inversion H; subst; simpl; try reflexivity; f_equal.
  - eapply Forall2_map_under; eassumption.
  - eapply Forall2_map_under; [| eassumption].
    eapply Forall_impl; [| exact IH].
    intros [k x] Hx [k' y] [Hk Hxy]. simpl in *. subst.
    f_equal. now apply Hx.
Qed.

(** A placeholder between the given texts, against a value there. *)
Ltac fill before p after value :=
  change (leaf_template (before ++ p ++ after) (before ++ value ++ after));
  apply leaf_filled; simpl; auto.

Lemma template_of_payloads : template_of templated_json concrete_json.
Proof.
  unfold templated_json, concrete_json.
  repeat first
    [ apply template_object | apply template_array
    | apply Forall2_nil | apply Forall2_cons
    | split; [reflexivity |] | apply template_string
    | apply leaf_same ].
  - fill "" "<GITPATH>" "/1.Create_Tables.sql"
      "Demos and Tutorials/L100-200 Tutorials".
  - fill "" "<DBSQL warehouse_id>" "" "d1184b8c2a8a87eb".
  - fill "" "<GITPATH>" "/2.Load_Data.sql"
      "/Repos/saurabh.shukla@databricks.com/dbsql_sme/Demos and Tutorials/L100-200 Tutorials".
  - fill "" "<DBSQL warehouse_id>" "" "d1184b8c2a8a87eb".
  - fill "" "<GITPATH>" "/3.Query_Fact_Sales.sql"
      "/Repos/saurabh.shukla@databricks.com/dbsql_sme/Demos and Tutorials/L100-200 Tutorials".
  - fill "" "<DBSQL warehouse_id>" "" "d1184b8c2a8a87eb".
  - fill "https://github.com/" "<GITUSERNAME>" "/dbsql_sme.git"
      "saurabhshukla-db".
  - fill "" "<username>@<domain>.com" "" "saurabh.shukla@databricks.com".
Qed.

(** C1: the templated document is the concrete one up to its leaves:
    the same task keys, the same [depends_on] edges, the same arrays,
    objects and member names at every level, and at each leaf either
    the same string or a placeholder where the concrete document has
    a value. *)
Theorem templated_isomorphic_to_concrete :
  task_keys templated_job = task_keys concrete_job
  /\ edges templated_job = edges concrete_job
  /\ shape templated_json = shape concrete_json
  /\ template_of templated_json concrete_json.
Proof.
  split; [reflexivity |].
  split; [reflexivity |].
  split.
  - apply template_shape, template_of_payloads.
  - exact template_of_payloads.
Qed.

Lemma templated_substitution_points :
  substitution_points templated_payload
    = Some [ "<GITPATH>"; "<DBSQL warehouse_id>";
             "<GITPATH>"; "<DBSQL warehouse_id>";
             "<GITPATH>"; "<DBSQL warehouse_id>";
             "<GITUSERNAME>"; "<username>@<domain>.com" ].
Proof. vm_compute. reflexivity. Qed.

(** The concrete text has no angle bracket at all. *)
Lemma concrete_substitution_points :
  substitution_points concrete_payload = Some [].
Proof. vm_compute. reflexivity. Qed.

(** Whatever the scan finds is one of the known placeholders. *)
Lemma occurrences_known (s : string) :
  forall skip found,
    occurrences skip s = Some found ->
    Forall (fun p => In p placeholders) found.
Proof.
  induction s as [| c r IH]; intros skip found H; cbn [occurrences] in H.
  - injection H as <-. constructor.
  - destruct skip as [| n]; [| now apply (IH n)].
    destruct (Ascii.eqb c "<").
    + destruct (find _ placeholders) as [p |] eqn:Hfind; [| discriminate].
      destruct (occurrences _ r) as [more |] eqn:Hmore; [| discriminate].
      injection H as <-. constructor.
      * now apply find_some in Hfind.
      * now apply (IH _ _ Hmore).
    + destruct (Ascii.eqb c ">"); [discriminate | now apply (IH 0)].
Qed.

(** C7: the scan of the templated text for angle brackets succeeds, so
    every bracket belongs to one of the four placeholders; what it
    finds are the four placeholders, each of them at least once. *)
Theorem template_placeholders_exact :
  exists found,
    substitution_points templated_payload = Some found
    /\ (forall p, In p found <-> In p placeholders).
Proof.
  eexists. split; [exact templated_substitution_points |].
  intros p. split.
  - revert p. apply Forall_forall.
    exact (occurrences_known _ _ _ templated_substitution_points).
  - unfold placeholders. simpl. intuition.
Qed.

(** ** Writing a document and reading it back *)

Section LexRender.

Lemma string_of_list_ascii_snoc (l : list ascii) (c : ascii) (s : string) :
  string_of_list_ascii (l ++ [c]) ++ s
    = string_of_list_ascii l ++ String c s.
Proof.
  induction l as [| a l IH]; simpl; [reflexivity | now rewrite IH].
Qed.

Lemma append_empty (s : string) : s ++ "" = s.
Proof.
  induction s as [| c s IH]; simpl; [reflexivity | now rewrite IH].
Qed.

Lemma append_assoc (a b c : string) : (a ++ b) ++ c = a ++ b ++ c.
Proof.
  induction a as [| x a IH]; simpl; [reflexivity | now rewrite IH].
Qed.

(** Inside a string, the escaped text of [s] and the closing quote
    give back [s] after what was read so far. *)
Lemma lex_string_body (s : string) :
  forall (buf : list ascii) (rest : string),
    lex_from (InString buf) (escape s ++ String dquote rest)
      = emit (TString (string_of_list_ascii (rev buf) ++ s))
          (lex_from Outside rest).
Proof.
  induction s as [| c s IH]; intros buf rest.
  - simpl. now rewrite append_empty.
  - simpl escape.
    destruct (Ascii.eqb c dquote) eqn:Hq.
    + apply Ascii.eqb_eq in Hq. subst c. simpl.
      rewrite IH. simpl. now rewrite string_of_list_ascii_snoc.
    + destruct (Ascii.eqb c backslash) eqn:Hb.
      * apply Ascii.eqb_eq in Hb. subst c. simpl.
        rewrite IH. simpl. now rewrite string_of_list_ascii_snoc.
      * simpl. rewrite Hq, Hb, IH. simpl.
        now rewrite string_of_list_ascii_snoc.
Qed.

Lemma lex_token (t : token) (rest : string) :
  lex_from Outside (render_token t ++ rest)
    = emit t (lex_from Outside rest).
Proof.
  destruct t; try reflexivity.
  simpl render_token. cbn [append].
  rewrite append_assoc. cbn [append].
  change (lex_from Outside (String dquote (escape s ++ String dquote rest)))
    with (lex_from (InString []) (escape s ++ String dquote rest)).
  now rewrite lex_string_body.
Qed.

(** The lexer reads back the tokens that were rendered. *)
Lemma lex_render (ts : list token) : lex (render ts) = Some ts.
Proof.
  unfold lex.
  induction ts as [| t ts IH]; [reflexivity |].
  simpl render. now rewrite lex_token, IH.
Qed.

End LexRender.

Section ParseTokens.

(** What [parse_value] has to do on the tokens of [v]. *)
Let reads_back (v : json) : Prop :=
  forall fuel rest,
    List.length (tokens v) <= fuel ->
    parse_value fuel (tokens v ++ rest) = Some (v, rest).

(** A value never starts with a closing bracket. *)
Lemma tokens_head (v : json) :
  exists t ts, tokens v = t :: ts /\ t <> TRBracket.
Proof.
  destruct v as [| [|] | s | items | members]; simpl;
    eexists; eexists; (split; [reflexivity | discriminate]).
Qed.

Lemma parse_items_tail (items : list json) :
  Forall reads_back items ->
  forall fuel rest,
    List.length (flat_map (fun y => TComma :: tokens y) items) < fuel ->
    parse_items fuel
      (flat_map (fun y => TComma :: tokens y) items ++ TRBracket :: rest)
      = Some (items, rest).
Proof.
  induction 1 as [| y items Hy _ IH]; intros fuel rest Hfuel.
  - destruct fuel; [inversion Hfuel | reflexivity].
  - destruct fuel as [| n]; [inversion Hfuel |].
    simpl in Hfuel. rewrite length_app in Hfuel.
    simpl flat_map. rewrite <- app_comm_cons, <- app_assoc.
    simpl parse_items.
    rewrite Hy by lia. rewrite IH by lia. reflexivity.
Qed.

Lemma parse_members_tail (members : list (string * json)) :
  Forall (fun m => reads_back (snd m)) members ->
  forall fuel rest,
    List.length
      (flat_map
         (fun m => TComma :: member_tokens (fst m) (tokens (snd m)))
         members) < fuel ->
    parse_members fuel
      (flat_map
         (fun m => TComma :: member_tokens (fst m) (tokens (snd m)))
         members ++ TRBrace :: rest)
      = Some (members, rest).
Proof.
  induction 1 as [| [k y] members Hy _ IH]; intros fuel rest Hfuel.
  - destruct fuel; [inversion Hfuel | reflexivity].
  - destruct fuel as [| n]; [inversion Hfuel |].
    simpl in Hfuel. rewrite length_app in Hfuel.
    simpl flat_map. unfold member_tokens at 1.
    rewrite <- !app_comm_cons, <- app_assoc.
    simpl parse_members. simpl in Hy.
    rewrite Hy by lia. rewrite IH by lia. reflexivity.
Qed.

(** With fuel for every token, the reader gives back the value whose
    tokens it is given and leaves what follows them. *)
Lemma parse_value_tokens (v : json) : reads_back v.
Proof.
  induction v as [| b | s | items IH | members IH] using json_ind;
    intros fuel rest Hfuel.
  - destruct fuel; [inversion Hfuel | reflexivity].
  - destruct fuel; [inversion Hfuel | now destruct b].
  - destruct fuel; [inversion Hfuel | reflexivity].
  - destruct fuel as [| n]; [inversion Hfuel |].
    destruct items as [| x items]; [reflexivity |].
    inversion IH as [| ? ? Hx Hitems]; subst.
    simpl in Hfuel. rewrite !length_app in Hfuel. simpl in Hfuel.
    simpl tokens.
    destruct (tokens_head x) as (t & ts & Hts & Hne).
    rewrite <- app_comm_cons, <- !app_assoc.
    assert (Hstep :
      parse_value (S n)
        (TLBracket :: tokens x ++
           flat_map (fun y => TComma :: tokens y) items ++
           [TRBracket] ++ rest)
      = match parse_value n
                (tokens x ++
                   flat_map (fun y => TComma :: tokens y) items ++
                   [TRBracket] ++ rest) with
        | Some (v, r1) =>
            match parse_items n r1 with
            | Some (vs, r2) => Some (JArray (v :: vs), r2)
            | None => None
            end
        | None => None
        end).
    { rewrite Hts. simpl. destruct t; try reflexivity. congruence. }
    rewrite Hstep. rewrite Hx by lia.
    simpl app. rewrite parse_items_tail by (assumption || lia).
    reflexivity.
  - destruct fuel as [| n]; [inversion Hfuel |].
    destruct members as [| [k x] members]; [reflexivity |].
    inversion IH as [| ? ? Hx Hmembers]; subst. simpl in Hx.
    simpl in Hfuel. rewrite !length_app in Hfuel. simpl in Hfuel.
    simpl tokens. unfold member_tokens at 1.
    rewrite <- !app_comm_cons, <- !app_assoc.
    simpl parse_value. rewrite Hx by lia.
    simpl app. rewrite parse_members_tail by (assumption || lia).
    reflexivity.
Qed.

Lemma parse_tokens_tokens (v : json) : parse_tokens (tokens v) = Some v.
Proof.
  unfold parse_tokens.
  rewrite <- (app_nil_r (tokens v)) at 2.
  rewrite parse_value_tokens by lia. reflexivity.
Qed.

End ParseTokens.

(** Reading what was written gives the document back. *)
Lemma parse_serialize (v : json) : parse (serialize v) = Some v.
Proof.
  unfold parse, serialize. rewrite lex_render. apply parse_tokens_tokens.
Qed.

(** Any text the reader accepts specifies the same job after it is
    written back. *)
Lemma reserialize_read_job (text out : string) :
  reserialize text = Some out -> read_job out = read_job text.
Proof.
  unfold reserialize, read_job.
  destruct (parse text) as [v |]; simpl; [| discriminate].
  intros H. injection H as <-. now rewrite parse_serialize.
Qed.

(** The writer's layout is not the notebook's: the text changes. *)
Lemma reserialize_reformats (text : string) :
  In text texts -> reserialize text <> Some text.
Proof.
  intros [<- | [<- | []]] H;
    apply (f_equal (option_map String.length)) in H;
    vm_compute in H; discriminate.
Qed.

Lemma in_texts (text : string) :
  In text texts -> text = concrete_payload \/ text = templated_payload.
Proof. simpl. intuition. Qed.

(** C5: for either payload, reading the text and writing the document
    back gives a text that reads to the same task graph: the same task
    keys, the same [depends_on] edges and the same [run_if] per task. *)
Theorem round_trip_preserves_graph (text : string) :
  In text texts ->
  exists out g,
    reserialize text = Some out
    /\ graph_of text = Some g
    /\ graph_of out = Some g.
Proof.
  intros Hin.
  assert (Hread : exists v j, parse text = Some v /\ read_job text = Some j).
  { apply in_texts in Hin. destruct Hin as [-> | ->].
    - exists concrete_json, concrete_job.
      split; [exact parse_concrete | exact read_concrete].
    - exists templated_json, templated_job.
      split; [exact parse_templated | exact read_templated]. }
  destruct Hread as (v & j & Hparse & Hjob).
  assert (Hout : reserialize text = Some (serialize v))
    by (unfold reserialize; now rewrite Hparse).
  exists (serialize v), (graph j). split; [exact Hout |].
  unfold graph_of. rewrite (reserialize_read_job _ _ Hout), Hjob.
  split; reflexivity.
Qed.

Lemma round_trip_preserves_graph_witness :
  In concrete_payload texts
  /\ exists out g,
       reserialize concrete_payload = Some out
       /\ graph_of concrete_payload = Some g
       /\ graph_of out = Some g.
Proof.
  assert (H : In concrete_payload texts) by (simpl; auto).
  split; [exact H | exact (round_trip_preserves_graph _ H)].
Defined.

(** ** The templated job as a graph *)

Import Cells Codec Fields.

(** X1: the templated payload has the dependency chain of the concrete
    one, Load_Data on Create_Tables and Query_Fact_Sales on Load_Data,
    and no task of it is reachable from itself. *)
Theorem templated_dependency_chain :
  edges templated_job
    = [("Load_Data", "Create_Tables"); ("Query_Fact_Sales", "Load_Data")]
  /\ acyclic templated_job.
Proof.
  split; [reflexivity |].
  apply topological_acyclic. reflexivity.
Qed.

(** ** The commands of the notebook *)

Lemma no_squote_cons (c : ascii) (s : string) :
  no_squote (String c s) = negb (Ascii.eqb c squote) && no_squote s.
Proof. reflexivity. Qed.

(** Outside a quoted word, text without a quote is passed over. *)
Lemma quoted_bare_skip (pre rest : string) :
  no_squote pre = true ->
  quoted_from Bare (pre ++ rest) = quoted_from Bare rest.
Proof.
  induction pre as [| c pre IH]; intros H; [reflexivity |].
  rewrite no_squote_cons in H. apply andb_true_iff in H as [Hc Hpre].
  apply negb_true_iff in Hc. cbn [append quoted_from]. rewrite Hc. auto.
Qed.

(** Inside a quoted word, text without a quote is taken as it is. *)
Lemma quoted_body (p : string) :
  forall (buf : list ascii) (rest : string),
    no_squote p = true ->
    quoted_from (Quoted buf) (p ++ String squote rest)
      = option_map (cons (string_of_list_ascii (rev buf) ++ p))
          (quoted_from Bare rest).
Proof.
  induction p as [| c p IH]; intros buf rest H.
  - cbn. now rewrite append_empty.
  - rewrite no_squote_cons in H. apply andb_true_iff in H as [Hc Hp].
    apply negb_true_iff in Hc. cbn [append quoted_from]. rewrite Hc.
    rewrite IH by assumption. cbn [rev].
    now rewrite string_of_list_ascii_snoc.
Qed.

(** A payload with a quote in it starts with a part that has none. *)
Lemma first_squote (p : string) :
  no_squote p = false ->
  exists a b, p = a ++ String squote b /\ no_squote a = true.
Proof.
  induction p as [| c p IH]; intros H; [discriminate |].
  rewrite no_squote_cons in H.
  destruct (Ascii.eqb c squote) eqn:Hc.
  - apply Ascii.eqb_eq in Hc. subst c. now exists EmptyString, p.
  - destruct (IH H) as (a & b & -> & Ha).
    exists (String c a), b. split; [reflexivity |].
    rewrite no_squote_cons, Hc. exact Ha.
Qed.

Lemma length_append (a b : string) :
  String.length (a ++ b) = String.length a + String.length b.
Proof.
  induction a as [| c a IH]; simpl; [reflexivity | now rewrite IH].
Qed.

Lemma command_words (p rest : string) :
  quoted_from Bare (command p ++ rest)
    = quoted_from (Quoted []) (p ++ String squote rest).
Proof.
  unfold command. rewrite append_assoc.
  rewrite quoted_bare_skip by reflexivity.
  cbn [append]. rewrite append_assoc. reflexivity.
Qed.

(** X2: the command passes its payload as one word, unchanged, exactly
    when the payload holds no single quote. *)
Theorem command_argument (p : string) :
  quoted_words (command p) = Some [p] <-> no_squote p = true.
Proof.
  unfold quoted_words.
  rewrite <- (append_empty (command p)), command_words.
  split.
  - intros H. destruct (no_squote p) eqn:Hp; [reflexivity | exfalso].
    destruct (first_squote p Hp) as (a & b & -> & Ha).
    rewrite append_assoc in H. cbn [append] in H.
    rewrite quoted_body in H by assumption. cbn [rev] in H.
    destruct (quoted_from Bare _) as [ws |]; [| discriminate].
    cbn in H. injection H as Hlen _.
    apply (f_equal String.length) in Hlen.
    rewrite length_append in Hlen. simpl in Hlen. lia.
  - intros H. now rewrite quoted_body.
Qed.

Lemma payloads_no_squote :
  no_squote concrete_payload = true /\ no_squote templated_payload = true.
Proof. split; vm_compute; reflexivity. Qed.

(** X3: the quoted words of the whole notebook are the concrete payload
    and the templated payload, in this order, and nothing else. *)
Theorem notebook_arguments :
  quoted_words notebook = Some [concrete_payload; templated_payload].
Proof.
  destruct payloads_no_squote as [Hc Ht].
  unfold quoted_words, notebook.
  change (header ++ String newline markdown_cell ++ cell_break
            ++ command concrete_payload
            ++ cell_break ++ command templated_payload)
    with ((header ++ String newline markdown_cell ++ cell_break)
            ++ command concrete_payload
            ++ cell_break ++ command templated_payload).
  rewrite quoted_bare_skip by reflexivity.
  rewrite command_words, quoted_body by assumption.
  rewrite quoted_bare_skip by reflexivity.
  rewrite <- (append_empty (command templated_payload)).
  rewrite command_words, quoted_body by assumption.
  reflexivity.
Qed.

(** ** Documents and the data model *)

Lemma decode_encode_references (keys : list string) :
  sequence (map (get_string "task_key") (map encode_reference keys))
    = Some keys.
Proof.
  induction keys as [| k keys IH]; [reflexivity |].
  cbn [map sequence]. rewrite IH. reflexivity.
Qed.

Lemma decode_encode_task (t : Task) : decode_task (encode_task t) = Some t.
Proof.
  destruct t as [k d r [[p s] w]].
  unfold decode_task, encode_task. cbn [task_key depends_on run_if sql_task].
  assert (Hd : decode_depends_on
                 (JObject (("task_key", JString k)
                    :: encode_depends_on d
                    ++ [("run_if", JString r);
                        ("sql_task",
                         encode_sql_task
                           {| file := {| path := p; source := s |};
                              warehouse_id := w |})])%list)
               = Some d).
  { destruct d as [| x d]; [reflexivity |].
    unfold decode_depends_on.
    cbn [encode_depends_on app field assoc String.eqb Ascii.eqb Bool.eqb].
    apply decode_encode_references. }
  change (get_string "task_key"
            (JObject (("task_key", JString k) :: ?[rest])))
    with (Some k).
  cbn [bind]. rewrite Hd. cbn [bind].
  destruct d; reflexivity.
Qed.

Lemma decode_encode_tasks (ts : list Task) :
  sequence (map decode_task (map encode_task ts)) = Some ts.
Proof.
  induction ts as [| t ts IH]; [reflexivity |].
  cbn [map sequence]. rewrite decode_encode_task, IH. reflexivity.
Qed.

(** Every job can be written as a document that decodes to it. *)
Lemma decode_encode_job (j : Job) : decode_job (encode_job j) = Some j.
Proof.
  destruct j as [n ts g [u]].
  unfold decode_job, encode_job. cbn [name tasks git_source run_as].
  change (get_string "name" (JObject ?[members])) with (Some n).
  cbn [bind app field assoc String.eqb Ascii.eqb Bool.eqb].
  rewrite decode_encode_tasks. cbn [bind].
  destruct g as [[url provider branch] |]; reflexivity.
Qed.

(** X4: each document is the encoding of the job it decodes to: the
    data model accounts for every member of the payload, and decoding
    drops nothing. *)
Theorem documents_lossless (v : json) (j : Job) :
  In (v, j) specifications -> decode_job v = Some j /\ encode_job j = v.
Proof.
  intros [H | [H | []]]; injection H as <- <-.
  - split; [| reflexivity].
    change concrete_json with (encode_job concrete_job).
    apply decode_encode_job.
  - split; [| reflexivity].
    change templated_json with (encode_job templated_job).
    apply decode_encode_job.
Qed.

Lemma documents_lossless_witness :
  In (templated_json, templated_job) specifications
  /\ decode_job templated_json = Some templated_job
  /\ encode_job templated_job = templated_json.
Proof.
  assert (H : In (templated_json, templated_job) specifications)
    by (simpl; auto).
  split; [exact H | exact (documents_lossless _ _ H)].
Defined.

(** ** Member names *)

Lemma assoc_absent (k : string) (members : list (string * json)) :
  mem k (map fst members) = false -> assoc_last k members = None.
Proof.
  induction members as [| [k' v] members IH]; [reflexivity |].
  cbn [map fst mem existsb]. intros H.
  apply orb_false_iff in H as [Hk Hrest].
  cbn [assoc_last]. unfold mem in IH. rewrite (IH Hrest), Hk. reflexivity.
Qed.

(** Among members of distinct names the first one of a name is the
    last one of that name. *)
Lemma distinct_assoc_last (k : string) (members : list (string * json)) :
  distinct (map fst members) = true ->
  assoc k members = assoc_last k members.
Proof.
  induction members as [| [k' v] members IH]; [reflexivity |].
  cbn [map fst distinct]. intros H.
  apply andb_true_iff in H as [Hk' Hrest]. apply negb_true_iff in Hk'.
  cbn [assoc assoc_last].
  destruct (String.eqb k k') eqn:Hk.
  - apply String.eqb_eq in Hk. subst k'.
    now rewrite (assoc_absent _ _ Hk').
  - rewrite IH by assumption. now destruct (assoc_last k members).
Qed.

(** X5: in both documents no object, at any depth, repeats a member
    name; so a reader that keeps the first member of a name and one
    that keeps the last find the same value for every name. *)
Theorem documents_unique_names (v : json) (j : Job) (k : string) :
  In (v, j) specifications ->
  unique_names v = true /\ field k v = field_last k v.
Proof.
  intros Hin.
  assert (Hu : unique_names v = true)
    by (destruct Hin as [H | [H | []]]; injection H as <- <-; reflexivity).
  split; [exact Hu |].
  destruct v as [| b | s | items | members]; try reflexivity.
  cbn [unique_names] in Hu. apply andb_true_iff in Hu as [Hd _].
  now apply distinct_assoc_last.
Qed.

Lemma documents_unique_names_witness :
  In (concrete_json, concrete_job) specifications
  /\ unique_names concrete_json = true
  /\ field "tasks" concrete_json = field_last "tasks" concrete_json.
Proof.
  assert (H : In (concrete_json, concrete_job) specifications)
    by (simpl; auto).
  split; [exact H | exact (documents_unique_names _ _ "tasks" H)].
Defined.

(** ** The fields of the template *)


(** ** File paths *)

(** A path with a slash is its directory, a slash and its file name. *)
Lemma dirname_basename (s : string) :
  has_slash s = true -> s = dirname s ++ String "/" (basename s).
Proof.
  induction s as [| c r IH]; [discriminate |].
  cbn [has_slash dirname basename]. intros H.
  destruct (has_slash r) eqn:Hr.
  - cbn [append]. now rewrite <- IH.
  - rewrite orb_false_r in H. rewrite H.
    apply Ascii.eqb_eq in H. now subst c.
Qed.

Lemma append_cancel_r (a b s : string) : a ++ s = b ++ s -> a = b.
Proof.
  revert b. induction a as [| x a IH]; intros [| y b] H.
  - reflexivity.
  - apply (f_equal String.length) in H.
    cbn [append] in H. simpl in H. rewrite length_append in H. lia.
  - apply (f_equal String.length) in H.
    cbn [append] in H. simpl in H. rewrite length_append in H. lia.
  - cbn [append] in H. injection H as -> H. f_equal. now apply IH.
Qed.

(** X7: in both payloads the file of the task at position i, counted
    from 1, is named i.task_key.sql. *)
Theorem script_names (j : Job) (i : nat) (t : Task) :
  In j jobs -> nth_error (tasks j) i = Some t ->
  basename (file_path t) = script_name (S i) (task_key t).
Proof.
  intros Hj Ht. apply in_jobs in Hj.
  destruct Hj as [-> | ->];
    destruct i as [| [| [| i]]]; cbn in Ht;
    try (injection Ht as <-; reflexivity);
    destruct i; discriminate.
Qed.

Lemma script_names_witness :
  In templated_job jobs
  /\ nth_error (tasks templated_job) 1 = Some templated_load_data
  /\ basename (file_path templated_load_data)
     = script_name 2 (task_key templated_load_data).
Proof.
  assert (Hj : In templated_job jobs) by (simpl; auto).
  assert (Ht : nth_error (tasks templated_job) 1 = Some templated_load_data)
    by reflexivity.
  split; [exact Hj |]. split; [exact Ht |].
  exact (script_names _ _ _ Hj Ht).
Defined.

(** X8: every path of the template is <GITPATH>, a slash and a file
    name, but no directory put for <GITPATH> gives all the concrete
    paths: whatever the directory, some task's concrete path is not
    that directory followed by the file name of the template. *)
Theorem gitpath_not_uniform (dir : string) :
  Forall (fun t => dirname (file_path t) = "<GITPATH>") (tasks templated_job)
  /\ exists i t c,
       nth_error (tasks templated_job) i = Some t
       /\ nth_error (tasks concrete_job) i = Some c
       /\ file_path c <> dir ++ String "/" (basename (file_path t)).
Proof.
  split; [repeat constructor |].
  destruct (string_dec dir "Demos and Tutorials/L100-200 Tutorials")
    as [-> | Hne].
  - exists 1, templated_load_data, concrete_load_data.
    repeat split. discriminate.
  - exists 0, templated_create_tables, concrete_create_tables.
    repeat split. intros H. apply Hne. symmetry.
    apply (append_cancel_r _ _ "/1.Create_Tables.sql"). exact H.
Qed.

(** X9: in the concrete payload the file of a WORKSPACE task lies in
    the repository checked out under /Repos for the [run_as] user: its
    path is /Repos, the user name, the name the [git_url] gives the
    repository, the directory of the GIT task's file and the file
    name. *)
Theorem workspace_paths_in_checkout (t : Task) :
  In t (tasks concrete_job) -> file_source t = "WORKSPACE" ->
  exists repository,
    option_map (fun g => basename (git_url g)) (git_source concrete_job)
      = Some (repository ++ ".git")
    /\ file_path t
       = "/Repos/" ++ user_name (run_as concrete_job)
           ++ "/" ++ repository
           ++ "/" ++ dirname (file_path concrete_create_tables)
           ++ "/" ++ basename (file_path t).
Proof.
  intros Ht Hs. exists "dbsql_sme". split; [reflexivity |].
  apply in_tasks_concrete in Ht.
  destruct Ht as [-> | [-> | ->]]; [discriminate Hs | reflexivity ..].
Qed.

Lemma workspace_paths_in_checkout_witness :
  In concrete_query_fact_sales (tasks concrete_job)
  /\ file_source concrete_query_fact_sales = "WORKSPACE"
  /\ exists repository,
       option_map (fun g => basename (git_url g)) (git_source concrete_job)
         = Some (repository ++ ".git")
       /\ file_path concrete_query_fact_sales
          = "/Repos/" ++ user_name (run_as concrete_job)
              ++ "/" ++ repository
              ++ "/" ++ dirname (file_path concrete_create_tables)
              ++ "/" ++ basename (file_path concrete_query_fact_sales).
Proof.
  assert (Ht : In concrete_query_fact_sales (tasks concrete_job))
    by (simpl; auto).
  assert (Hs : file_source concrete_query_fact_sales = "WORKSPACE")
    by reflexivity.
  split; [exact Ht |]. split; [exact Hs |].
  exact (workspace_paths_in_checkout _ Ht Hs).
Defined.

(** X10: in both payloads the only task that reads its file from GIT
    is the root, Create_Tables, and the job names the repository to
    read it from: it has a [git_source]. *)
Theorem git_task_has_git_source (j : Job) (t : Task) :
  In j jobs -> In t (tasks j) -> file_source t = "GIT" ->
  task_key t = "Create_Tables"
  /\ depends_on t = []
  /\ exists g, git_source j = Some g.
Proof.
  intros Hj Ht Hs.
  each_task Hj Ht; try discriminate Hs;
    (split; [reflexivity | split; [reflexivity | eexists; reflexivity]]).
Qed.

Lemma git_task_has_git_source_witness :
  In concrete_job jobs
  /\ In concrete_create_tables (tasks concrete_job)
  /\ file_source concrete_create_tables = "GIT"
  /\ task_key concrete_create_tables = "Create_Tables"
  /\ depends_on concrete_create_tables = []
  /\ exists g, git_source concrete_job = Some g.
Proof.
  assert (Hj : In concrete_job jobs) by (simpl; auto).
  assert (Ht : In concrete_create_tables (tasks concrete_job))
    by (simpl; auto).
  assert (Hs : file_source concrete_create_tables = "GIT") by reflexivity.
  split; [exact Hj |]. split; [exact Ht |]. split; [exact Hs |].
  exact (git_task_has_git_source _ _ Hj Ht Hs).
Defined.

(** ** The two payloads line by line *)

Lemma forall2b_Forall2 {A B : Type} (f : A -> B -> bool)
  (R : A -> B -> Prop) (l : list A) :
  (forall a b, f a b = true -> R a b) ->
  forall l', forall2b f l l' = true -> Forall2 R l l'.
Proof.
  intros Hf. induction l as [| a l IH]; intros [| b l'] H;
    try discriminate; constructor.
  - apply Hf. cbn [forall2b] in H. now apply andb_true_iff in H.
  - apply IH. cbn [forall2b] in H. now apply andb_true_iff in H.
Qed.

Lemma line_kept_spec (t c : string) :
  line_kept t c = true -> (t = c <-> has_bracket t = false).
Proof.
  unfold line_kept. intros H. apply Bool.eqb_prop in H.
  rewrite <- negb_true_iff, <- H. symmetry. apply String.eqb_eq.
Qed.

(** X11: the two payloads have the same number of lines, and a line of
    the template is the concrete line at its place exactly when it
    holds no angle bracket. *)
Theorem template_lines :
  Forall2 (fun t c => t = c <-> has_bracket t = false)
    templated_lines concrete_lines.
Proof.
  apply (forall2b_Forall2 line_kept); [exact line_kept_spec |].
  vm_compute. reflexivity.
Qed.
